(** * Community contribution form (src/app/community/page.tsx)

    A shallow embedding of the contribution-intake page: the zod schema
    [formSchema] with its resolver, the file-selection handler
    [handleFileChange], the submit handler [onSubmit] with the three pieces
    of component state it drives, and the three-way summary panel. *)

From Stdlib Require Import List NArith Strings.String Strings.Ascii Bool Arith Lia.
Import ListNotations.

(** ** JavaScript strings

    A JS string is a sequence of UTF-16 code units and [.length] counts
    code units; that is the length zod's [min] check compares. *)
Module Js.

Definition code_unit := N.
Definition jsstring := list code_unit.

(** An ASCII literal of the source, one code unit per character. *)
Definition lit (s : string) : jsstring :=
  map N_of_ascii (list_ascii_of_string s).

(** U+0022, the quotation mark the summary template puts around the name. *)
Definition dquote : code_unit := 34%N.

(** Truthiness of a string value: only the empty string is falsy. *)
Definition truthy (s : jsstring) : bool :=
  match s with [] => false | _ :: _ => true end.

Fixpoint startsWith (s sub : jsstring) {struct sub} : bool :=
  match sub, s with
  | [], _ => true
  | _ :: _, [] => false
  | c :: sub', d :: s' => N.eqb c d && startsWith s' sub'
  end.

(** [String.prototype.includes]. *)
Fixpoint includes (s sub : jsstring) : bool :=
  startsWith s sub ||
  match s with
  | [] => false
  | _ :: s' => includes s' sub
  end.

(** WhiteSpace and LineTerminator code points of ECMAScript, the ones
    [String.prototype.trim] strips. All of them are single code units. *)
Definition is_whitespace (c : code_unit) : bool :=
  (N.eqb c 9 || N.eqb c 10 || N.eqb c 11 || N.eqb c 12 || N.eqb c 13
   || N.eqb c 32 || N.eqb c 160 || N.eqb c 5760
   || (N.leb 8192 c && N.leb c 8202)
   || N.eqb c 8232 || N.eqb c 8233 || N.eqb c 8239 || N.eqb c 8287
   || N.eqb c 12288 || N.eqb c 65279)%N.

Fixpoint trimStart (s : jsstring) : jsstring :=
  match s with
  | [] => []
  | c :: s' => if is_whitespace c then trimStart s' else s
  end.

Definition trimEnd (s : jsstring) : jsstring := rev (trimStart (rev s)).

(** [String.prototype.trim]; the schema never calls it. *)
Definition trim (s : jsstring) : jsstring := trimEnd (trimStart s).

Definition is_high_surrogate (c : code_unit) : bool :=
  (N.leb 55296 c && N.leb c 56319)%N.
Definition is_low_surrogate (c : code_unit) : bool :=
  (N.leb 56320 c && N.leb c 57343)%N.

(** Number of Unicode code points of a string (what [[...s].length]
    gives): a surrogate pair counts once. *)
Fixpoint code_points (s : jsstring) : nat :=
  match s with
  | [] => 0
  | c :: t =>
      match t with
      | d :: t' =>
          if is_high_surrogate c && is_low_surrogate d
          then S (code_points t')
          else S (code_points t)
      | [] => 1
      end
  end.

End Js.
Import Js.

(** ** Data model *)

(** The DOM [File] interface, as far as the page can observe it. *)
Module File.
Record t := mk { name : jsstring; size : N; type : jsstring }.
End File.

(** Values of type [File | null | undefined], the type of [artifactFile]. *)
Inductive FileField :=
| Undefined
| Null
| Present (f : File.t).

(** [type FormValues = z.infer<typeof formSchema>]. *)
Record FormValues := mkFormValues {
  artifactName : jsstring;
  artifactFile : FileField;
  contributionText : jsstring
}.

Inductive FieldName := f_artifactName | f_artifactFile | f_contributionText.

Definition FieldName_eqb (a b : FieldName) : bool :=
  match a, b with
  | f_artifactName, f_artifactName => true
  | f_artifactFile, f_artifactFile => true
  | f_contributionText, f_contributionText => true
  | _, _ => false
  end.

Inductive result (A E : Type) :=
| Ok (a : A)
| Err (e : E).
Arguments Ok {A E} a.
Arguments Err {A E} e.

(** ** The zod combinators the schema uses *)
Module Zod.

Inductive IssueCode := too_small.

Record Issue := mkIssue {
  code : IssueCode;
  minimum : nat;
  path : FieldName;
  message : jsstring
}.

(** [z.string().min(n, { message })] on a string input: the type check
    passes, the [min] check adds a [too_small] issue when
    [input.length < n]. *)
Definition string_min (n : nat) (msg : jsstring) (p : FieldName)
    (input : jsstring) : list Issue :=
  if List.length input <? n then [mkIssue too_small n p msg] else [].

(** [z.instanceof(File).optional().nullable()]: [nullable] accepts
    [null], [optional] accepts [undefined], [instanceof(File)] accepts
    every [File]; nothing else inhabits the input type. *)
Definition instanceof_File_optional_nullable (p : FieldName)
    (input : FileField) : list Issue :=
  match input with
  | Null => []
  | Undefined => []
  | Present _ => []
  end.

End Zod.

(** ** Validation schema (page.tsx, lines 27-36) *)

Definition msg_artifactName : jsstring :=
  lit "Artifact name must be at least 2 characters.".
Definition msg_contributionText : jsstring :=
  lit "Description must be at least 20 characters long.".

(** [formSchema]: [z.object] parses every key of its shape, in order, and
    collects the issues of all of them. *)
Definition formSchema (values : FormValues) : list Zod.Issue :=
  Zod.string_min 2 msg_artifactName f_artifactName (artifactName values)
  ++ Zod.instanceof_File_optional_nullable f_artifactFile (artifactFile values)
  ++ Zod.string_min 20 msg_contributionText f_contributionText
       (contributionText values).

(** An entry of react-hook-form's [FieldErrors]. *)
Record FieldError := mkFieldError {
  field : FieldName;
  error_type : Zod.IssueCode;
  error_message : jsstring
}.

Definition has_field (p : FieldName) (es : list FieldError) : bool :=
  existsb (fun e => FieldName_eqb (field e) p) es.

(** [zodResolver]'s conversion of issues: the first issue of each path
    becomes that field's error. *)
Fixpoint toFieldErrors (acc : list FieldError) (issues : list Zod.Issue)
    : list FieldError :=
  match issues with
  | [] => acc
  | i :: rest =>
      if has_field (Zod.path i) acc then toFieldErrors acc rest
      else toFieldErrors
             (acc ++ [mkFieldError (Zod.path i) (Zod.code i) (Zod.message i)])
             rest
  end.

(** [zodResolver(formSchema)]: the parsed values when there is no issue,
    the field errors otherwise. *)
Definition validate (values : FormValues)
    : result FormValues (list FieldError) :=
  match formSchema values with
  | [] => Ok values
  | issues => Err (toFieldErrors [] issues)
  end.

Definition field_error (p : FieldName) (r : result FormValues (list FieldError))
    : option FieldError :=
  match r with
  | Ok _ => None
  | Err es => find (fun e => FieldName_eqb (field e) p) es
  end.

(** ** Component state (page.tsx, lines 41-54) *)

Inductive Variant := Default | Destructive.

Record Toast := mkToast {
  title : jsstring;
  description : jsstring;
  variant : Variant
}.

(** The hidden [<input type="file">]: its list of selected files. Its
    [value] is the empty string exactly when that list is empty, and
    assigning the empty string to [value] empties the list. *)
Record FileInput := mkFileInput { files : list File.t }.

Definition clear_value (w : FileInput) : FileInput := mkFileInput [].

(** How the promise awaited inside [onSubmit] settles. *)
Inductive Settlement :=
| Fulfilled
| Rejected (reason : jsstring).

(** What the suspended body of [onSubmit] holds on to across its [await]:
    the captured [values] and the [fileInfo] computed before it. *)
Record Continuation := mkContinuation {
  values : FormValues;
  fileInfo : jsstring
}.

Record State := mkState {
  form : FormValues;                   (* values held by useForm *)
  errors : list FieldError;            (* formState.errors *)
  selectedFileName : option jsstring;  (* useState<string | null> *)
  fileInputRef : option FileInput;     (* fileInputRef.current *)
  isPending : bool;                    (* useTransition *)
  summary : option jsstring;           (* useState<string | null> *)
  toasts : list Toast;                 (* calls of toast(...), oldest first *)
  console : list jsstring;             (* console.error, oldest first *)
  inflight : list Continuation         (* suspended onSubmit bodies *)
}.

Definition defaultValues : FormValues :=
  mkFormValues [] Null [].

(** State after mount. *)
Definition init : State :=
  mkState defaultValues [] None (Some (mkFileInput [])) false None [] [] [].

Definition set_form (x : FormValues) (st : State) : State :=
  mkState x (errors st) (selectedFileName st) (fileInputRef st) (isPending st)
          (summary st) (toasts st) (console st) (inflight st).
Definition set_errors (x : list FieldError) (st : State) : State :=
  mkState (form st) x (selectedFileName st) (fileInputRef st) (isPending st)
          (summary st) (toasts st) (console st) (inflight st).
Definition setSelectedFileName (x : option jsstring) (st : State) : State :=
  mkState (form st) (errors st) x (fileInputRef st) (isPending st)
          (summary st) (toasts st) (console st) (inflight st).
Definition set_fileInputRef (x : option FileInput) (st : State) : State :=
  mkState (form st) (errors st) (selectedFileName st) x (isPending st)
          (summary st) (toasts st) (console st) (inflight st).
Definition set_isPending (x : bool) (st : State) : State :=
  mkState (form st) (errors st) (selectedFileName st) (fileInputRef st) x
          (summary st) (toasts st) (console st) (inflight st).
Definition setSummary (x : option jsstring) (st : State) : State :=
  mkState (form st) (errors st) (selectedFileName st) (fileInputRef st)
          (isPending st) x (toasts st) (console st) (inflight st).
Definition toast (x : Toast) (st : State) : State :=
  mkState (form st) (errors st) (selectedFileName st) (fileInputRef st)
          (isPending st) (summary st) (toasts st ++ [x]) (console st)
          (inflight st).
Definition console_error (x : jsstring) (st : State) : State :=
  mkState (form st) (errors st) (selectedFileName st) (fileInputRef st)
          (isPending st) (summary st) (toasts st) (console st ++ [x])
          (inflight st).
Definition set_inflight (x : list Continuation) (st : State) : State :=
  mkState (form st) (errors st) (selectedFileName st) (fileInputRef st)
          (isPending st) (summary st) (toasts st) (console st) x.

(** [form.setValue("artifactFile", file)] *)
Definition setValue_artifactFile (file : FileField) (st : State) : State :=
  set_form (mkFormValues (artifactName (form st)) file
                         (contributionText (form st))) st.

(** [form.reset()]: back to [defaultValues], errors dropped. *)
Definition form_reset (st : State) : State :=
  set_errors [] (set_form defaultValues st).

(** ** Attachment handling (page.tsx, lines 57-61) *)

(** [event.target.files?.[0]] for [files : FileList | null]. *)
Definition first_file (target_files : option (list File.t)) : FileField :=
  match target_files with
  | None => Undefined
  | Some [] => Undefined
  | Some (f :: _) => Present f
  end.

(** [x || null] on a [File | undefined]. *)
Definition or_null (x : FileField) : FileField :=
  match x with
  | Present f => Present f
  | Undefined | Null => Null
  end.

(** [file ? file.name : null] *)
Definition file_name_or_null (file : FileField) : option jsstring :=
  match file with
  | Present f => Some (File.name f)
  | Undefined | Null => None
  end.

Definition handleFileChange (target_files : option (list File.t))
    (st : State) : State :=
  let file := or_null (first_file target_files) in
  setSelectedFileName (file_name_or_null file)
    (setValue_artifactFile file st).

(** ** Submission (page.tsx, lines 65-95) *)

(** [values.artifactFile ? ` (with file: ${values.artifactFile.name})` : ""] *)
Definition fileInfo_of (v : FormValues) : jsstring :=
  match artifactFile v with
  | Present f => lit " (with file: " ++ File.name f ++ lit ")"
  | Undefined | Null => []
  end.

(** The template literal passed to [setSummary] on success. *)
Definition summary_text (k : Continuation) : jsstring :=
  lit "Thank you for your submission about " ++ [dquote]
  ++ artifactName (values k) ++ [dquote] ++ fileInfo k
  ++ lit ". The data has been received and will be authenticated and added to the archive.".

Definition toast_received : Toast :=
  mkToast (lit "Contribution Received!")
          (lit "Your submission has been sent for review.") Default.

Definition toast_error : Toast :=
  mkToast (lit "Error")
          (lit "Failed to submit contribution. Please try again.") Destructive.

(** [new Promise(resolve => setTimeout(resolve, 2000))]: the executor only
    ever arranges a call of [resolve]; the delay is the time until the
    [Settle] event below. *)
Definition simulated (_ : FormValues) : Settlement := Fulfilled.

(** [onSubmit] up to its [await]: the transition starts, the shown summary
    is dropped, [fileInfo] is computed, and the body suspends. *)
Definition onSubmit (v : FormValues) (st : State) : State :=
  let st := set_isPending true st in
  let st := setSummary None st in
  set_inflight (inflight st ++ [mkContinuation v (fileInfo_of v)]) st.

(** The rest of the [try] block, run when the awaited promise fulfils. *)
Definition onSubmit_fulfilled (k : Continuation) (st : State) : State :=
  let st := setSummary (Some (summary_text k)) st in
  let st := toast toast_received st in
  let st := form_reset st in
  let st := setSelectedFileName None st in
  match fileInputRef st with
  | Some w => set_fileInputRef (Some (clear_value w)) st
  | None => st
  end.

(** The [catch] block, run when the awaited promise rejects. *)
Definition onSubmit_rejected (reason : jsstring) (st : State) : State :=
  let st := console_error (lit "Submission failed: " ++ reason) st in
  toast toast_error st.

(** [form.handleSubmit(onSubmit)]: run the resolver on the current values;
    call [onSubmit] with the parsed values, or record the field errors. *)
Definition handleSubmit (st : State) : State :=
  match validate (form st) with
  | Ok v => onSubmit v (set_errors [] st)
  | Err es => set_errors es st
  end.

(** [disabled={isPending}] on the submit button. *)
Definition submit_disabled (st : State) : bool := isPending st.

Inductive Event :=
| ChangeName (s : jsstring)        (* typing in the artifact-name input *)
| ChangeText (s : jsstring)        (* typing in the description textarea *)
| ChooseFiles (fs : list File.t)   (* change event of the file input *)
| Submit                           (* activating the submit button *)
| Settle.                          (* the awaited promise settles *)

Section Controller.

(** The promise [onSubmit] awaits, as a function of the submitted
    values; the page itself uses [simulated]. *)
Variable dispatch : FormValues -> Settlement.

(** The transition is pending from [startTransition] until the async
    callback has run to its end. *)
Definition settle (st : State) : State :=
  match inflight st with
  | [] => st
  | k :: rest =>
      let st := set_inflight rest st in
      let st :=
        match dispatch (values k) with
        | Fulfilled => onSubmit_fulfilled k st
        | Rejected reason => onSubmit_rejected reason st
        end in
      set_isPending (match rest with [] => false | _ :: _ => true end) st
  end.

Definition step (e : Event) (st : State) : State :=
  match e with
  | ChangeName s =>
      set_form (mkFormValues s (artifactFile (form st))
                             (contributionText (form st))) st
  | ChangeText s =>
      set_form (mkFormValues (artifactName (form st))
                             (artifactFile (form st)) s) st
  | ChooseFiles fs =>
      match fileInputRef st with
      | Some _ =>
          handleFileChange (Some fs)
            (set_fileInputRef (Some (mkFileInput fs)) st)
      | None => st
      end
  | Submit => if submit_disabled st then st else handleSubmit st
  | Settle => settle st
  end.

(** Events are handled one at a time, oldest first. *)
Definition run (tr : list Event) (st : State) : State :=
  fold_left (fun s e => step e s) tr st.

End Controller.

(** ** Summary panel (page.tsx, lines 222-248) *)

Inductive View :=
| PendingView                   (* "Analyzing your input..." *)
| ResultView (text : jsstring)  (* the summary paragraph *)
| AwaitingView.                 (* "Awaiting Input" *)

(** [isPending ? ... : summary ? ... : ...] *)
Definition render (st : State) : View :=
  if isPending st then PendingView
  else match summary st with
       | Some s => if truthy s then ResultView s else AwaitingView
       | None => AwaitingView
       end.

(** ** Invariants of the reachable states *)

(** At most one [onSubmit] body is suspended; the transition is pending
    exactly while one is, the summary has been dropped by then, and the
    suspended body holds the [fileInfo] of its own values. *)
Definition consistent (st : State) : Prop :=
  match inflight st with
  | [] => isPending st = false
  | [k] =>
      isPending st = true /\ summary st = None
      /\ fileInfo k = fileInfo_of (values k)
  | _ :: _ :: _ => False
  end.

(** Whatever is stored in [summary] came out of the success template. *)
Definition summary_from_template (st : State) : Prop :=
  match summary st with
  | None => True
  | Some s => exists k, s = summary_text k
  end.

(** The [catch] block has left no trace: every toast is the success toast
    and nothing was logged. *)
Definition no_failure_reported (st : State) : Prop :=
  Forall (fun t => t = toast_received) (toasts st) /\ console st = [].

(** Inputs of the scenarios of the specification. *)
Definition phurba_dagger : jsstring := lit "Phurba Dagger".
Definition dagger_description : jsstring :=
  lit "A ceremonial dagger used in ritual practice for generations.".
Definition dagger_jpg (size : N) (type : jsstring) : File.t :=
  File.mk (lit "dagger.jpg") size type.

(** Two stand-ins for a service that can fail, to exercise the [catch]
    block: one that always rejects, one that rejects submissions carrying
    a file. *)
Definition unavailable (_ : FormValues) : Settlement :=
  Rejected (lit "service unavailable").
Definition rejects_files (v : FormValues) : Settlement :=
  match artifactFile v with
  | Present _ => Rejected (lit "upload failed")
  | Undefined | Null => Fulfilled
  end.

(** ** The rest of the page *)

(** Label of the upload button (page.tsx, line 161):
    [selectedFileName ? selectedFileName : "Choose File"]. *)
Definition upload_button_label (st : State) : jsstring :=
  match selectedFileName st with
  | Some n => if truthy n then n else lit "Choose File"
  | None => lit "Choose File"
  end.

(** The three holders of the attachment agree: the file input is mounted,
    the form holds its first file ([null] when it has none), and the shown
    name is that file's name. *)
Definition attachment_in_sync (st : State) : Prop :=
  exists w,
    fileInputRef st = Some w
    /\ artifactFile (form st)
       = match files w with [] => Null | f :: _ => Present f end
    /\ selectedFileName st
       = match files w with [] => None | f :: _ => Some (File.name f) end.

(** The two length conditions of [formSchema]. *)
Definition satisfies_schema (v : FormValues) : Prop :=
  2 <= List.length (artifactName v)
  /\ 20 <= List.length (contributionText v).

(** Only values that passed the schema are suspended or summarised. *)
Definition validated_only (st : State) : Prop :=
  Forall (fun k => satisfies_schema (values k)
                   /\ fileInfo k = fileInfo_of (values k)) (inflight st)
  /\ match summary st with
     | None => True
     | Some s =>
         exists v, satisfies_schema v
                   /\ s = summary_text (mkContinuation v (fileInfo_of v))
     end.

Definition is_settle (e : Event) : bool :=
  match e with
  | Settle => true
  | ChangeName _ | ChangeText _ | ChooseFiles _ | Submit => false
  end.

Definition is_destructive (t : Toast) : bool :=
  match variant t with
  | Destructive => true
  | Default => false
  end.

(** Every pass through the [catch] block leaves one log line and one
    error toast, and no other kind of toast exists. *)
Definition failures_logged (st : State) : Prop :=
  List.length (console st)
  = List.length (filter is_destructive (toasts st))
  /\ Forall (fun t => t = toast_received \/ t = toast_error) (toasts st).

(** The two field errors of the schema. *)
Definition error_artifactName : FieldError :=
  mkFieldError f_artifactName Zod.too_small msg_artifactName.
Definition error_contributionText : FieldError :=
  mkFieldError f_contributionText Zod.too_small msg_contributionText.

(** * Properties *)

(** ** Strings *)

Lemma startsWith_app (sub post : jsstring) :
  startsWith (sub ++ post) sub = true.
Proof.
  induction sub as [|c sub IH]; simpl.
  - reflexivity.
  - rewrite N.eqb_refl. exact IH.
Qed.

Lemma startsWith_inv (s sub : jsstring) :
  startsWith s sub = true -> exists post, s = sub ++ post.
Proof.
  revert s. induction sub as [|c sub IH]; intros s H.
  - exists s. reflexivity.
  - destruct s as [|d s]; simpl in H; [discriminate|].
    apply andb_true_iff in H. destruct H as [Hc Hs].
    apply N.eqb_eq in Hc. subst d.
    destruct (IH _ Hs) as [post ->]. exists post. reflexivity.
Qed.

Lemma includes_app (pre sub post : jsstring) :
  includes (pre ++ sub ++ post) sub = true.
Proof.
  induction pre as [|c pre IH].
  - simpl app. destruct (sub ++ post) eqn:E; simpl; rewrite <- ?E;
      rewrite startsWith_app; reflexivity.
  - simpl. rewrite IH. apply orb_true_r.
Qed.

(** [includes] is substring containment. *)
Lemma includes_spec (s sub : jsstring) :
  includes s sub = true <-> exists pre post, s = pre ++ sub ++ post.
Proof.
  split.
  - induction s as [|c s IH]; simpl; intros H.
    + rewrite orb_false_r in H. apply startsWith_inv in H.
      destruct H as [post H]. exists [], post. exact H.
    + apply orb_true_iff in H. destruct H as [H|H].
      * apply startsWith_inv in H. destruct H as [post H].
        exists [], post. exact H.
      * destruct (IH H) as (pre & post & ->).
        exists (c :: pre), post. reflexivity.
  - intros (pre & post & ->). apply includes_app.
Qed.

Lemma trimStart_whitespace (s : jsstring) :
  forallb is_whitespace s = true -> trimStart s = [].
Proof.
  induction s as [|c s IH]; simpl; intros H.
  - reflexivity.
  - apply andb_true_iff in H. destruct H as [Hc Hs].
    rewrite Hc. auto.
Qed.

Lemma trim_whitespace (s : jsstring) :
  forallb is_whitespace s = true -> trim s = [].
Proof.
  intros H. unfold trim, trimEnd.
  rewrite (trimStart_whitespace s H). reflexivity.
Qed.

Lemma code_points_le_length_aux (n : nat) :
  forall s : jsstring, List.length s <= n -> code_points s <= List.length s.
Proof.
  induction n as [|n IH]; intros s Hn.
  - destruct s; simpl in *; lia.
  - destruct s as [|c [|d t']]; simpl in *; try lia.
    destruct (is_high_surrogate c && is_low_surrogate d).
    + specialize (IH t'). lia.
    + specialize (IH (d :: t')). simpl in IH. lia.
Qed.

(** A string never has more code points than code units. *)
Lemma code_points_le_length (s : jsstring) :
  code_points s <= List.length s.
Proof. apply (code_points_le_length_aux (List.length s)). lia. Qed.

(** ** Validation *)

Lemma string_min_ok (n : nat) (msg : jsstring) (p : FieldName) (s : jsstring) :
  n <= List.length s -> Zod.string_min n msg p s = [].
Proof.
  intros H. unfold Zod.string_min.
  destruct (Nat.ltb_spec (List.length s) n); [lia | reflexivity].
Qed.

Lemma instanceof_File_ok (p : FieldName) (x : FileField) :
  Zod.instanceof_File_optional_nullable p x = [].
Proof. destruct x; reflexivity. Qed.

Lemma validate_ok (v : FormValues) :
  2 <= List.length (artifactName v) ->
  20 <= List.length (contributionText v) ->
  validate v = Ok v.
Proof.
  intros Hn Ht. unfold validate, formSchema.
  rewrite (string_min_ok _ _ _ _ Hn), (string_min_ok _ _ _ _ Ht), instanceof_File_ok.
  reflexivity.
Qed.

(** The validator succeeds exactly on the two length conditions. *)
Lemma validate_ok_iff (v : FormValues) :
  validate v = Ok v <->
  2 <= List.length (artifactName v) /\ 20 <= List.length (contributionText v).
Proof.
  split; [|intros [Hn Ht]; apply validate_ok; assumption].
  unfold validate, formSchema, Zod.string_min.
  rewrite instanceof_File_ok.
  destruct (Nat.ltb_spec (List.length (artifactName v)) 2) as [Hn|Hn];
    destruct (Nat.ltb_spec (List.length (contributionText v)) 20) as [Ht|Ht];
    simpl; intros E; try discriminate; lia.
Qed.

(** C1. Whenever [artifactName] has length at least 2 and
    [contributionText] has length at least 20, [validate] succeeds and
    returns the values as they are, whatever [artifactFile] holds:
    [undefined], [null], or a file of any name, size and mime type. *)
Theorem validate_succeeds_whatever_attachment
    (name text : jsstring) (file : FileField) :
  2 <= List.length name ->
  20 <= List.length text ->
  validate (mkFormValues name file text) = Ok (mkFormValues name file text).
Proof. intros Hn Ht. apply validate_ok; assumption. Qed.

Lemma validate_succeeds_whatever_attachment_witness :
  validate (mkFormValues (lit "Thangka") (Present (File.mk (lit "huge.exe") 999999999 (lit "application/octet-stream")))
                         (lit "A painted scroll from Rumtek."))
  = Ok (mkFormValues (lit "Thangka") (Present (File.mk (lit "huge.exe") 999999999 (lit "application/octet-stream")))
                     (lit "A painted scroll from Rumtek.")).
Proof.
  apply validate_succeeds_whatever_attachment; simpl; lia.
Defined.

(** The same with lengths counted in Unicode code points. *)
Corollary validate_succeeds_code_points
    (name text : jsstring) (file : FileField) :
  2 <= code_points name ->
  20 <= code_points text ->
  validate (mkFormValues name file text) = Ok (mkFormValues name file text).
Proof.
  intros Hn Ht. apply validate_ok; simpl.
  - pose proof (code_points_le_length name). lia.
  - pose proof (code_points_le_length text). lia.
Qed.

(** C2. On [{artifactName: "A", contributionText: "short"}] validation
    fails with exactly two field errors, the one of [artifactName] and the
    one of [contributionText], each with its field and its message; and in
    general the error reported for a field is decided by that field alone,
    so a failure of one field never hides the other. *)
Theorem validate_reports_each_field :
  (forall file,
     validate (mkFormValues (lit "A") file (lit "short"))
     = Err [mkFieldError f_artifactName Zod.too_small msg_artifactName;
            mkFieldError f_contributionText Zod.too_small msg_contributionText])
  /\ truthy msg_artifactName = true
  /\ truthy msg_contributionText = true
  /\ (forall v,
        field_error f_artifactName (validate v)
        = if List.length (artifactName v) <? 2
          then Some (mkFieldError f_artifactName Zod.too_small msg_artifactName)
          else None)
  /\ (forall v,
        field_error f_contributionText (validate v)
        = if List.length (contributionText v) <? 20
          then Some (mkFieldError f_contributionText Zod.too_small
                                  msg_contributionText)
          else None)
  /\ (forall v, field_error f_artifactFile (validate v) = None).
Proof.
  repeat split.
  - intros file. unfold validate, formSchema. rewrite instanceof_File_ok.
    reflexivity.
  - intros v. unfold validate, formSchema, Zod.string_min.
    rewrite instanceof_File_ok.
    destruct (List.length (artifactName v) <? 2);
      destruct (List.length (contributionText v) <? 20); reflexivity.
  - intros v. unfold validate, formSchema, Zod.string_min.
    rewrite instanceof_File_ok.
    destruct (List.length (artifactName v) <? 2);
      destruct (List.length (contributionText v) <? 20); reflexivity.
  - intros v. unfold validate, formSchema, Zod.string_min.
    rewrite instanceof_File_ok.
    destruct (List.length (artifactName v) <? 2);
      destruct (List.length (contributionText v) <? 20); reflexivity.
Qed.

(** C3. The name is checked as typed, not trimmed: a name made of
    whitespace only, of length at least 2, passes (with a description of
    length at least 20) and is returned unchanged, although trimming it
    would leave the empty string. *)
Theorem whitespace_only_name_passes
    (name text : jsstring) (file : FileField) :
  forallb is_whitespace name = true ->
  2 <= List.length name ->
  20 <= List.length text ->
  validate (mkFormValues name file text) = Ok (mkFormValues name file text)
  /\ trim name = [].
Proof.
  intros Hw Hn Ht. split.
  - apply validate_ok; assumption.
  - apply trim_whitespace. exact Hw.
Qed.

Lemma whitespace_only_name_passes_witness :
  validate (mkFormValues (lit "   ") Null (lit "A painted scroll from Rumtek."))
  = Ok (mkFormValues (lit "   ") Null (lit "A painted scroll from Rumtek."))
  /\ trim (lit "   ") = [].
Proof.
  apply whitespace_only_name_passes; [reflexivity | simpl; lia | simpl; lia].
Defined.

(** ** Attachment handling *)

Lemma handleFileChange_last (e1 e2 : option (list File.t)) (st : State) :
  handleFileChange e2 (handleFileChange e1 st) = handleFileChange e2 st.
Proof. destruct st. reflexivity. Qed.

(** C4. Two file selections in a row leave exactly the second file: the
    form holds the first file offered by the second selection, the shown
    name is that file's name, and the resulting state is the one the second
    selection alone would have produced, so nothing of the first selection
    is kept; files offered after the first one are dropped. *)
Theorem second_selection_replaces_first
    (st : State) (e1 : option (list File.t)) (f2 : File.t)
    (more : list File.t) :
  let st2 := handleFileChange (Some (f2 :: more)) (handleFileChange e1 st) in
  artifactFile (form st2) = Present f2
  /\ selectedFileName st2 = Some (File.name f2)
  /\ st2 = handleFileChange (Some [f2]) st.
Proof.
  cbv zeta. rewrite handleFileChange_last. destruct st. repeat split.
Qed.

(** The same through the change events of the file input. *)
Lemma choose_files_twice (dispatch : FormValues -> Settlement)
    (st : State) (w : FileInput) (fs1 : list File.t) (f2 : File.t)
    (more : list File.t) :
  fileInputRef st = Some w ->
  let st2 := run dispatch [ChooseFiles fs1; ChooseFiles (f2 :: more)] st in
  artifactFile (form st2) = Present f2
  /\ selectedFileName st2 = Some (File.name f2)
  /\ st2 = run dispatch [ChooseFiles (f2 :: more)] st.
Proof.
  intros Hw. destruct st. simpl in Hw. subst. repeat split.
Qed.

(** ** The controller *)

Section ControllerFacts.

Variable dispatch : FormValues -> Settlement.

Lemma run_app (tr1 tr2 : list Event) (st : State) :
  run dispatch (tr1 ++ tr2) st = run dispatch tr2 (run dispatch tr1 st).
Proof. apply fold_left_app. Qed.

Lemma run_preserves (P : State -> Prop) :
  (forall e st, P st -> P (step dispatch e st)) ->
  forall tr st, P st -> P (run dispatch tr st).
Proof.
  intros Hstep tr. induction tr as [|e tr IH]; intros st H.
  - exact H.
  - simpl. apply IH. apply Hstep. exact H.
Qed.

Lemma validate_returns_input (v v' : FormValues) :
  validate v = Ok v' -> v' = v.
Proof.
  unfold validate. destruct (formSchema v); intros E;
    [injection E; auto | discriminate].
Qed.

Lemma submit_disabled_ignored (st : State) :
  isPending st = true -> step dispatch Submit st = st.
Proof. intros H. simpl. unfold submit_disabled. rewrite H. reflexivity. Qed.

Lemma consistent_step (e : Event) (st : State) :
  consistent st -> consistent (step dispatch e st).
Proof.
  unfold consistent. destruct st as [fm er sel ref pend sm ts cs infl].
  destruct e; simpl.
  - auto.
  - auto.
  - destruct ref; simpl; auto.
  - unfold submit_disabled; simpl. destruct pend; simpl; [auto|].
    unfold handleSubmit; simpl. destruct (validate fm); simpl; [|auto].
    destruct infl as [|k [|k' rest]]; simpl; intros H.
    + auto.
    + destruct H; discriminate.
    + contradiction.
  - unfold settle; simpl. destruct infl as [|k [|k' rest]]; simpl; intros H.
    + exact H.
    + destruct (dispatch (values k)); simpl; [destruct ref|]; reflexivity.
    + contradiction.
Qed.

Lemma consistent_run (tr : list Event) :
  consistent (run dispatch tr init).
Proof. apply run_preserves; [apply consistent_step | reflexivity]. Qed.

Lemma consistent_inflight (st : State) :
  consistent st -> List.length (inflight st) <= 1.
Proof.
  unfold consistent. destruct (inflight st) as [|k [|k' rest]]; simpl;
    intros H; [lia | lia | contradiction].
Qed.

Lemma summary_from_template_step (e : Event) (st : State) :
  summary_from_template st -> summary_from_template (step dispatch e st).
Proof.
  unfold summary_from_template.
  destruct st as [fm er sel ref pend sm ts cs infl].
  destruct e; simpl; auto.
  - destruct ref; simpl; auto.
  - unfold submit_disabled; simpl. destruct pend; simpl; [auto|].
    unfold handleSubmit; simpl. destruct (validate fm); simpl; auto.
  - unfold settle; simpl. destruct infl as [|k rest]; simpl; [auto|].
    intros H. destruct (dispatch (values k)); simpl.
    + destruct ref; simpl; exists k; reflexivity.
    + exact H.
Qed.

Lemma summary_from_template_run (tr : list Event) :
  summary_from_template (run dispatch tr init).
Proof.
  apply run_preserves; [apply summary_from_template_step | exact I].
Qed.

(** What the failure branch changes and what it leaves alone. *)
Lemma settle_rejected (st : State) (k : Continuation)
    (rest : list Continuation) (r : jsstring) :
  inflight st = k :: rest ->
  dispatch (values k) = Rejected r ->
  let st' := step dispatch Settle st in
  form st' = form st
  /\ errors st' = errors st
  /\ selectedFileName st' = selectedFileName st
  /\ fileInputRef st' = fileInputRef st
  /\ summary st' = summary st
  /\ toasts st' = toasts st ++ [toast_error]
  /\ inflight st' = rest
  /\ isPending st' = match rest with [] => false | _ :: _ => true end.
Proof.
  intros Hk Hr. destruct st. simpl in *. subst. unfold settle. simpl.
  rewrite Hr. simpl. repeat split.
Qed.

(** What the success branch does. *)
Lemma settle_fulfilled (st : State) (k : Continuation)
    (rest : list Continuation) :
  inflight st = k :: rest ->
  dispatch (values k) = Fulfilled ->
  let st' := step dispatch Settle st in
  form st' = defaultValues
  /\ errors st' = []
  /\ selectedFileName st' = None
  /\ fileInputRef st' = option_map clear_value (fileInputRef st)
  /\ summary st' = Some (summary_text k)
  /\ toasts st' = toasts st ++ [toast_received]
  /\ console st' = console st
  /\ inflight st' = rest
  /\ isPending st' = match rest with [] => false | _ :: _ => true end.
Proof.
  intros Hk Hr. destruct st as [fm er sel ref pend sm ts cs infl].
  simpl in *. subst. unfold settle. simpl. rewrite Hr.
  destruct ref; simpl; repeat split.
Qed.

Lemma onSubmit_fields (v : FormValues) (st : State) :
  let st' := onSubmit v (set_errors [] st) in
  form st' = form st
  /\ selectedFileName st' = selectedFileName st
  /\ fileInputRef st' = fileInputRef st
  /\ toasts st' = toasts st
  /\ console st' = console st
  /\ inflight st' = inflight st ++ [mkContinuation v (fileInfo_of v)].
Proof. destruct st. repeat split. Qed.

(** An accepted submit: the body of [onSubmit] runs up to its [await]. *)
Lemma submit_accepted (st : State) (v : FormValues) :
  isPending st = false ->
  validate (form st) = Ok v ->
  step dispatch Submit st = onSubmit (form st) (set_errors [] st).
Proof.
  intros Hp Hv. simpl. unfold submit_disabled. rewrite Hp.
  unfold handleSubmit. rewrite Hv.
  rewrite (validate_returns_input _ _ Hv). reflexivity.
Qed.

End ControllerFacts.

(** ** Submitting while a submission is pending *)

Lemma repeat_submit_ignored (dispatch : FormValues -> Settlement)
    (n : nat) (st : State) :
  isPending st = true -> run dispatch (repeat Submit n) st = st.
Proof.
  intros H. induction n as [|n IH].
  - reflexivity.
  - simpl repeat. change (run dispatch (Submit :: repeat Submit n) st)
      with (run dispatch (repeat Submit n) (step dispatch Submit st)).
    rewrite (submit_disabled_ignored dispatch st H). exact IH.
Qed.

(** C5. In a state reached with the transition pending, a further submit
    changes nothing at all: the state after it, and after any number of
    them, is the state before, with the same single suspended submission.
    In every reachable state at most one submission is suspended. *)
Theorem submit_ignored_while_pending
    (dispatch : FormValues -> Settlement) (tr : list Event) :
  isPending (run dispatch tr init) = true ->
  step dispatch Submit (run dispatch tr init) = run dispatch tr init
  /\ (forall n, run dispatch (tr ++ repeat Submit n) init
                = run dispatch tr init)
  /\ List.length (inflight (run dispatch tr init)) = 1
  /\ (forall tr', List.length (inflight (run dispatch tr' init)) <= 1).
Proof.
  intros Hp. split; [|split; [|split]].
  - apply submit_disabled_ignored. exact Hp.
  - intros n. rewrite run_app. apply repeat_submit_ignored. exact Hp.
  - pose proof (consistent_run dispatch tr) as Hc. unfold consistent in Hc.
    destruct (inflight (run dispatch tr init)) as [|k [|k' rest]].
    + congruence.
    + reflexivity.
    + contradiction.
  - intros tr'. apply consistent_inflight, consistent_run.
Qed.

Lemma submit_ignored_while_pending_witness :
  let tr := [ChangeName phurba_dagger; ChangeText dagger_description; Submit] in
  step simulated Submit (run simulated tr init) = run simulated tr init
  /\ (forall n, run simulated (tr ++ repeat Submit n) init
                = run simulated tr init)
  /\ List.length (inflight (run simulated tr init)) = 1
  /\ (forall tr', List.length (inflight (run simulated tr' init)) <= 1).
Proof.
  apply (submit_ignored_while_pending simulated
           [ChangeName phurba_dagger; ChangeText dagger_description; Submit]).
  reflexivity.
Defined.

(** The guard is the disabled button alone: [onSubmit] has no check of its
    own and suspends one more body whenever it is called. *)
Lemma onSubmit_unguarded (v : FormValues) (st : State) :
  inflight (onSubmit v st)
  = inflight st ++ [mkContinuation v (fileInfo_of v)].
Proof. destruct st. reflexivity. Qed.

(** A submit is accepted again as soon as the pending one has settled. *)
Lemma submit_accepted_after_settle :
  let tr := [ChangeName phurba_dagger; ChangeText dagger_description;
             Submit; Settle;
             ChangeName phurba_dagger; ChangeText dagger_description;
             Submit] in
  List.length (inflight (run simulated tr init)) = 1
  /\ List.length (toasts (run simulated tr init)) = 1.
Proof. split; reflexivity. Qed.

(** ** Outcome of a submission *)

(** C6. When the awaited promise fulfils, the form values are the
    defaults again (empty name, [null] file, empty description), the shown
    file name is [null], and the file input, if there is one, has lost its
    selected files. *)
Theorem fulfilled_resets_form_and_attachment
    (dispatch : FormValues -> Settlement) (st : State)
    (k : Continuation) (rest : list Continuation) :
  inflight st = k :: rest ->
  dispatch (values k) = Fulfilled ->
  let st' := step dispatch Settle st in
  form st' = defaultValues
  /\ artifactName (form st') = []
  /\ artifactFile (form st') = Null
  /\ contributionText (form st') = []
  /\ selectedFileName st' = None
  /\ fileInputRef st' = option_map clear_value (fileInputRef st)
  /\ (forall w, fileInputRef st' = Some w -> files w = []).
Proof.
  intros Hk Hd.
  destruct (settle_fulfilled dispatch st k rest Hk Hd)
    as (Hf & _ & Hs & Hr & _).
  cbv zeta. rewrite Hf, Hs, Hr. repeat split.
  intros w. destruct (fileInputRef st); simpl; intros E;
    [injection E as <-; reflexivity | discriminate].
Qed.

Lemma fulfilled_resets_form_and_attachment_witness :
  let f := dagger_jpg 1024 (lit "image/jpeg") in
  let st := run simulated [ChangeName phurba_dagger; ChooseFiles [f];
                           ChangeText dagger_description; Submit] init in
  let st' := step simulated Settle st in
  artifactFile (form st) = Present f
  /\ form st' = defaultValues
  /\ selectedFileName st' = None
  /\ (forall w, fileInputRef st' = Some w -> files w = []).
Proof.
  cbv zeta. split; [reflexivity|].
  pose proof (fulfilled_resets_form_and_attachment simulated
    (run simulated [ChangeName phurba_dagger;
                    ChooseFiles [dagger_jpg 1024 (lit "image/jpeg")];
                    ChangeText dagger_description; Submit] init)
    (mkContinuation
       (mkFormValues phurba_dagger
          (Present (dagger_jpg 1024 (lit "image/jpeg")))
          dagger_description)
       (fileInfo_of
          (mkFormValues phurba_dagger
             (Present (dagger_jpg 1024 (lit "image/jpeg")))
             dagger_description)))
    [] eq_refl eq_refl) as H.
  cbv zeta in H. destruct H as (H1 & _ & _ & _ & H5 & _ & H7).
  repeat split; assumption.
Defined.

(** C7. When the awaited promise rejects, nothing the user entered is
    lost. The failure branch leaves the form values, the shown file name
    and the file input as they were; so after a submit that is accepted
    and then rejected, with any number of ignored submits in between, all
    three are what they were before the submit. *)
Theorem rejected_keeps_user_data
    (dispatch : FormValues -> Settlement) (st : State) (r : jsstring) :
  isPending st = false ->
  inflight st = [] ->
  validate (form st) = Ok (form st) ->
  dispatch (form st) = Rejected r ->
  (forall n,
     let st' := run dispatch (Submit :: repeat Submit n ++ [Settle]) st in
     form st' = form st
     /\ selectedFileName st' = selectedFileName st
     /\ fileInputRef st' = fileInputRef st
     /\ toasts st' = toasts st ++ [toast_error])
  /\ (forall s k rest r',
        inflight s = k :: rest ->
        dispatch (values k) = Rejected r' ->
        form (step dispatch Settle s) = form s
        /\ selectedFileName (step dispatch Settle s) = selectedFileName s
        /\ fileInputRef (step dispatch Settle s) = fileInputRef s).
Proof.
  intros Hp Hi Hv Hd. split.
  - intros n. cbv zeta.
    change (run dispatch (Submit :: repeat Submit n ++ [Settle]) st)
      with (run dispatch (repeat Submit n ++ [Settle])
              (step dispatch Submit st)).
    rewrite (submit_accepted dispatch st (form st) Hp Hv).
    rewrite run_app, repeat_submit_ignored by reflexivity.
    destruct st as [fm er sel ref pend sm ts cs infl].
    simpl in *. subst. unfold settle. simpl. rewrite Hd. simpl.
    repeat split.
  - intros s k rest r' Hk Hr.
    destruct (settle_rejected dispatch s k rest r' Hk Hr) as (H1 & _ & H3 & H4 & _).
    repeat split; assumption.
Qed.

Lemma rejected_keeps_user_data_witness :
  let f := dagger_jpg 1024 (lit "image/jpeg") in
  let st := run unavailable [ChangeName phurba_dagger; ChooseFiles [f];
                             ChangeText dagger_description] init in
  let st' := run unavailable [Submit; Submit; Submit; Settle] st in
  form st' = mkFormValues phurba_dagger (Present f) dagger_description
  /\ selectedFileName st' = Some (lit "dagger.jpg")
  /\ fileInputRef st' = Some (mkFileInput [f])
  /\ toasts st' = [toast_error].
Proof.
  cbv zeta.
  pose proof (rejected_keeps_user_data unavailable
    (run unavailable [ChangeName phurba_dagger;
                      ChooseFiles [dagger_jpg 1024 (lit "image/jpeg")];
                      ChangeText dagger_description] init)
    (lit "service unavailable") eq_refl eq_refl eq_refl eq_refl) as [H _].
  exact (H 2).
Defined.

(** ** The summary template *)

Lemma summary_includes_name (k : Continuation) :
  includes (summary_text k) (artifactName (values k)) = true.
Proof.
  unfold summary_text.
  rewrite (app_assoc (lit "Thank you for your submission about ") [dquote]).
  apply includes_app.
Qed.

Lemma summary_includes_file_name (name text : jsstring) (f : File.t) :
  let v := mkFormValues name (Present f) text in
  includes (summary_text (mkContinuation v (fileInfo_of v))) (File.name f)
  = true.
Proof.
  cbv zeta. apply includes_spec. unfold summary_text, fileInfo_of. simpl.
  exists (lit "Thank you for your submission about " ++ [dquote] ++ name
          ++ [dquote] ++ lit " (with file: ").
  eexists. rewrite <- !app_assoc. reflexivity.
Qed.

(** C8. The scenarios of the specification, run from the mounted page.
    Without a file the submission passes validation and settles with a
    summary that contains the artifact name and does not contain
    "with file"; with a file named dagger.jpg, of any size and type, the
    summary contains that file name. The summary is the template applied
    to the submitted values, so it always contains the artifact name, and
    the file name whenever a file was attached. *)
Theorem summary_scenarios :
  (let v := mkFormValues phurba_dagger Null dagger_description in
   let st := run simulated [ChangeName phurba_dagger;
                            ChangeText dagger_description;
                            Submit; Settle] init in
   validate v = Ok v
   /\ summary st = Some (summary_text (mkContinuation v (fileInfo_of v)))
   /\ render st = ResultView (summary_text (mkContinuation v (fileInfo_of v)))
   /\ includes (summary_text (mkContinuation v (fileInfo_of v)))
               (lit "Phurba Dagger") = true
   /\ includes (summary_text (mkContinuation v (fileInfo_of v)))
               (lit "with file") = false)
  /\ (forall size type,
        let f := dagger_jpg size type in
        let v := mkFormValues phurba_dagger (Present f) dagger_description in
        let st := run simulated [ChangeName phurba_dagger; ChooseFiles [f];
                                 ChangeText dagger_description;
                                 Submit; Settle] init in
        validate v = Ok v
        /\ summary st = Some (summary_text (mkContinuation v (fileInfo_of v)))
        /\ includes (summary_text (mkContinuation v (fileInfo_of v)))
                    (lit "dagger.jpg") = true
        /\ includes (summary_text (mkContinuation v (fileInfo_of v)))
                    (lit "Phurba Dagger") = true)
  /\ (forall k, includes (summary_text k) (artifactName (values k)) = true)
  /\ (forall name text f,
        let v := mkFormValues name (Present f) text in
        includes (summary_text (mkContinuation v (fileInfo_of v)))
                 (File.name f) = true).
Proof.
  split; [|split; [|split]].
  - cbv zeta. repeat split; vm_compute; reflexivity.
  - intros size type. cbv zeta. repeat split; vm_compute; reflexivity.
  - exact summary_includes_name.
  - exact summary_includes_file_name.
Qed.

(** ** The simulated service *)

Lemma no_failure_step (e : Event) (st : State) :
  no_failure_reported st -> no_failure_reported (step simulated e st).
Proof.
  unfold no_failure_reported.
  destruct st as [fm er sel ref pend sm ts cs infl].
  destruct e; simpl; auto.
  - destruct ref; simpl; auto.
  - unfold submit_disabled; simpl. destruct pend; simpl; [auto|].
    unfold handleSubmit; simpl. destruct (validate fm); simpl; auto.
  - unfold settle; simpl. destruct infl as [|k rest]; simpl; [auto|].
    intros [Ht Hc]. destruct ref; simpl; (split; [|exact Hc]);
      apply Forall_app; split; auto.
Qed.

Lemma no_failure_run (tr : list Event) :
  no_failure_reported (run simulated tr init).
Proof.
  apply run_preserves; [apply no_failure_step|].
  split; [constructor | reflexivity].
Qed.

Lemma idle_has_no_inflight (st : State) :
  consistent st -> isPending st = false -> inflight st = [].
Proof.
  unfold consistent. destruct (inflight st) as [|k [|k' rest]]; intros H Hp.
  - reflexivity.
  - destruct H as [H _]. congruence.
  - contradiction.
Qed.

(** C9. With the promise the page really awaits, a submission that
    passes validation always ends in the success branch: the promise
    fulfils, the summary of the submitted values is stored, the success
    toast is the one emitted, and the transition is over. Along every
    sequence of events the error toast is never emitted and nothing is
    logged, so the [catch] block is never entered. *)
Theorem simulated_never_rejects (tr : list Event) (v : FormValues) :
  isPending (run simulated tr init) = false ->
  validate (form (run simulated tr init)) = Ok v ->
  simulated v = Fulfilled
  /\ (let st := run simulated tr init in
      let st' := run simulated (tr ++ [Submit; Settle]) init in
      summary st' = Some (summary_text (mkContinuation v (fileInfo_of v)))
      /\ toasts st' = toasts st ++ [toast_received]
      /\ isPending st' = false
      /\ inflight st' = [])
  /\ (forall tr', no_failure_reported (run simulated tr' init))
  /\ (forall tr', ~ In toast_error (toasts (run simulated tr' init))).
Proof.
  intros Hp Hv. split; [reflexivity|]. split; [|split].
  - cbv zeta. rewrite run_app.
    pose proof (idle_has_no_inflight _ (consistent_run simulated tr) Hp) as Hi.
    pose proof (validate_returns_input _ _ Hv) as ->.
    change (run simulated [Submit; Settle] (run simulated tr init))
      with (step simulated Settle
              (step simulated Submit (run simulated tr init))).
    rewrite (submit_accepted simulated _ _ Hp Hv).
    set (st := run simulated tr init) in *.
    destruct (onSubmit_fields (form st) st) as (_ & _ & _ & Ht & _ & Hk).
    rewrite Hi in Hk.
    destruct (settle_fulfilled simulated _ _ _ Hk eq_refl)
      as (_ & _ & _ & _ & Hs & Ht' & _ & Hi' & Hp').
    rewrite Hs, Ht', Ht, Hi', Hp'. repeat split.
  - exact no_failure_run.
  - intros tr' Hin. destruct (no_failure_run tr') as [Ht _].
    rewrite Forall_forall in Ht. specialize (Ht _ Hin). discriminate.
Qed.

Lemma simulated_never_rejects_witness :
  let tr := [ChangeName phurba_dagger; ChangeText dagger_description] in
  let v := mkFormValues phurba_dagger Null dagger_description in
  summary (run simulated (tr ++ [Submit; Settle]) init)
  = Some (summary_text (mkContinuation v (fileInfo_of v)))
  /\ toasts (run simulated (tr ++ [Submit; Settle]) init) = [toast_received].
Proof.
  cbv zeta.
  pose proof (simulated_never_rejects
    [ChangeName phurba_dagger; ChangeText dagger_description]
    (mkFormValues phurba_dagger Null dagger_description)
    eq_refl eq_refl) as (_ & (H1 & H2 & _) & _).
  split; [exact H1 | exact H2].
Defined.

(** ** What the summary panel shows *)

Lemma onSubmit_clears_summary (v : FormValues) (st : State) :
  summary (onSubmit v st) = None /\ render (onSubmit v st) = PendingView.
Proof. destruct st. split; reflexivity. Qed.

(** C10. [onSubmit] drops the stored summary before anything else, so
    while a submission is suspended there is no summary; when it is then
    rejected the summary is still [null] and the transition is over, and
    the panel shows the awaiting-input branch. The panel has no branch
    for a failure: whatever text it shows came out of the success
    template. *)
Theorem rejected_shows_awaiting_input
    (dispatch : FormValues -> Settlement) (tr : list Event)
    (k : Continuation) (rest : list Continuation) (r : jsstring) :
  inflight (run dispatch tr init) = k :: rest ->
  dispatch (values k) = Rejected r ->
  (forall v st, summary (onSubmit v st) = None)
  /\ summary (run dispatch tr init) = None
  /\ (let st' := step dispatch Settle (run dispatch tr init) in
      summary st' = None
      /\ isPending st' = false
      /\ render st' = AwaitingView)
  /\ (forall tr' text,
        render (run dispatch tr' init) = ResultView text ->
        exists k', text = summary_text k').
Proof.
  intros Hk Hr.
  pose proof (consistent_run dispatch tr) as Hc. unfold consistent in Hc.
  rewrite Hk in Hc. destruct rest as [|k' rest]; [|contradiction].
  destruct Hc as (Hp & Hs & _).
  split; [|split; [exact Hs|split]].
  - intros v st. apply onSubmit_clears_summary.
  - cbv zeta.
    destruct (settle_rejected dispatch _ k [] r Hk Hr)
      as (_ & _ & _ & _ & Hs' & _ & _ & Hp').
    unfold render. rewrite Hp', Hs', Hs. repeat split.
  - intros tr' text. pose proof (summary_from_template_run dispatch tr') as Ht.
    unfold summary_from_template in Ht. unfold render.
    destruct (isPending (run dispatch tr' init)); [discriminate|].
    destruct (summary (run dispatch tr' init)) as [s|]; [|discriminate].
    destruct (truthy s); [|discriminate].
    intros E. injection E as <-. exact Ht.
Qed.

Lemma rejected_shows_awaiting_input_witness :
  let f := dagger_jpg 1024 (lit "image/jpeg") in
  let shown := [ChangeName phurba_dagger; ChangeText dagger_description;
                Submit; Settle] in
  let tr := shown ++ [ChangeName phurba_dagger; ChooseFiles [f];
                      ChangeText dagger_description; Submit] in
  (exists text, render (run rejects_files shown init) = ResultView text)
  /\ summary (run rejects_files tr init) = None
  /\ render (step rejects_files Settle (run rejects_files tr init))
     = AwaitingView.
Proof.
  cbv zeta. split; [eexists; reflexivity|].
  pose proof (rejected_shows_awaiting_input rejects_files
    ([ChangeName phurba_dagger; ChangeText dagger_description;
      Submit; Settle]
     ++ [ChangeName phurba_dagger;
         ChooseFiles [dagger_jpg 1024 (lit "image/jpeg")];
         ChangeText dagger_description; Submit])
    (mkContinuation
       (mkFormValues phurba_dagger
          (Present (dagger_jpg 1024 (lit "image/jpeg")))
          dagger_description)
       (fileInfo_of
          (mkFormValues phurba_dagger
             (Present (dagger_jpg 1024 (lit "image/jpeg")))
             dagger_description)))
    [] (lit "upload failed") eq_refl eq_refl) as (_ & H2 & (_ & _ & H3) & _).
  split; [exact H2 | exact H3].
Defined.

(** * Further properties of the page *)

(** ** Validation outcome *)

(** X1. [validate] fails exactly when a text field is too short. On
    success it returns its input untouched; on failure it reports one or
    two errors, at most one per field, the name's before the
    description's, and never one for the file. *)
Theorem validate_outcome (v : FormValues) :
  match validate v with
  | Ok v' =>
      v' = v
      /\ 2 <= List.length (artifactName v)
      /\ 20 <= List.length (contributionText v)
  | Err es =>
      (List.length (artifactName v) < 2
       \/ List.length (contributionText v) < 20)
      /\ es = (if List.length (artifactName v) <? 2
               then [error_artifactName] else [])
              ++ (if List.length (contributionText v) <? 20
                  then [error_contributionText] else [])
      /\ 1 <= List.length es <= 2
      /\ NoDup (map field es)
      /\ Forall (fun e => field e <> f_artifactFile) es
  end.
Proof.
  unfold validate, formSchema, Zod.string_min.
  rewrite instanceof_File_ok.
  destruct (Nat.ltb_spec (List.length (artifactName v)) 2) as [Hn|Hn];
    destruct (Nat.ltb_spec (List.length (contributionText v)) 20) as [Ht|Ht];
    cbn [app toFieldErrors has_field existsb Zod.path Zod.code Zod.message
         field FieldName_eqb orb].
  - split; [left; exact Hn|]. split; [reflexivity|].
    split; [simpl; lia|]. split.
    + repeat constructor; simpl; intuition discriminate.
    + repeat constructor; discriminate.
  - split; [left; exact Hn|]. split; [reflexivity|].
    split; [simpl; lia|]. split.
    + repeat constructor; simpl; intuition.
    + repeat constructor; discriminate.
  - split; [right; exact Ht|]. split; [reflexivity|].
    split; [simpl; lia|]. split.
    + repeat constructor; simpl; intuition.
    + repeat constructor; discriminate.
  - repeat split; assumption.
Qed.

(** ** The attachment across the whole page *)

Section PageFacts.

Variable dispatch : FormValues -> Settlement.

Lemma attachment_in_sync_step (e : Event) (st : State) :
  attachment_in_sync st -> attachment_in_sync (step dispatch e st).
Proof.
  unfold attachment_in_sync.
  destruct st as [fm er sel ref pend sm ts cs infl].
  intros (w & Hw & Hf & Hs). simpl in Hw, Hf, Hs. subst ref.
  destruct e; simpl.
  - exists w. repeat split; assumption.
  - exists w. repeat split; assumption.
  - exists (mkFileInput fs). destruct fs; repeat split.
  - unfold submit_disabled; simpl. destruct pend; simpl.
    + exists w. repeat split; assumption.
    + unfold handleSubmit; simpl. destruct (validate fm); simpl;
        exists w; repeat split; assumption.
  - unfold settle; simpl. destruct infl as [|k rest]; simpl.
    + exists w. repeat split; assumption.
    + destruct (dispatch (values k)); simpl.
      * exists (clear_value w). repeat split.
      * exists w. repeat split; assumption.
Qed.

Lemma validated_only_step (e : Event) (st : State) :
  validated_only st -> validated_only (step dispatch e st).
Proof.
  unfold validated_only.
  destruct st as [fm er sel ref pend sm ts cs infl].
  destruct e; simpl; auto.
  - destruct ref; simpl; auto.
  - unfold submit_disabled; simpl. destruct pend; simpl; [auto|].
    unfold handleSubmit; simpl.
    destruct (validate fm) as [v|es] eqn:Hv; simpl; [|auto].
    intros [Hi _]. split; [|exact I].
    apply Forall_app. split; [exact Hi|].
    constructor; [|constructor]. simpl. split; [|reflexivity].
    pose proof (validate_returns_input _ _ Hv) as ->.
    apply validate_ok_iff. exact Hv.
  - unfold settle; simpl. destruct infl as [|k rest]; simpl; [auto|].
    intros [Hi Hs]. inversion Hi as [|k0 rest0 [Hk Hfi] Hrest]; subst.
    destruct (dispatch (values k)); simpl.
    + destruct ref; simpl; (split; [exact Hrest|]);
        exists (values k); (split; [exact Hk|]);
        rewrite <- Hfi; destruct k; reflexivity.
    + split; assumption.
Qed.

Lemma failures_logged_step (e : Event) (st : State) :
  failures_logged st -> failures_logged (step dispatch e st).
Proof.
  unfold failures_logged.
  destruct st as [fm er sel ref pend sm ts cs infl].
  destruct e; simpl; auto.
  - destruct ref; simpl; auto.
  - unfold submit_disabled; simpl. destruct pend; simpl; [auto|].
    unfold handleSubmit; simpl. destruct (validate fm); simpl; auto.
  - unfold settle; simpl. destruct infl as [|k rest]; simpl; [auto|].
    intros [Hc Ht]. destruct (dispatch (values k)); simpl.
    + destruct ref; simpl; (split;
        [rewrite filter_app; simpl; rewrite app_nil_r; exact Hc
        |apply Forall_app; split; [exact Ht|constructor; auto]]).
    + split.
      * rewrite filter_app, !length_app. simpl. lia.
      * apply Forall_app. split; [exact Ht|constructor; auto].
Qed.

(** Events other than the settling leave a suspended submission alone. *)
Lemma suspended_kept (e : Event) (st : State) :
  is_settle e = false ->
  isPending st = true ->
  isPending (step dispatch e st) = true
  /\ inflight (step dispatch e st) = inflight st.
Proof.
  intros He Hp. destruct e; try discriminate.
  - destruct st; split; [exact Hp | reflexivity].
  - destruct st; split; [exact Hp | reflexivity].
  - destruct st as [fm er sel ref pend sm ts cs infl]. simpl in *.
    destruct ref; split; simpl; auto.
  - rewrite (submit_disabled_ignored dispatch st Hp). split;
      [exact Hp | reflexivity].
Qed.

Lemma suspended_kept_run (mid : list Event) (st : State) :
  forallb (fun e => negb (is_settle e)) mid = true ->
  isPending st = true ->
  isPending (run dispatch mid st) = true
  /\ inflight (run dispatch mid st) = inflight st.
Proof.
  revert st. induction mid as [|e mid IH]; intros st Hm Hp.
  - split; [exact Hp | reflexivity].
  - simpl in Hm. apply andb_true_iff in Hm. destruct Hm as [He Hm].
    apply negb_true_iff in He.
    destruct (suspended_kept e st He Hp) as [Hp' Hi'].
    destruct (IH (step dispatch e st) Hm Hp') as [Hp2 Hi2].
    split; [exact Hp2 | rewrite <- Hi'; exact Hi2].
Qed.

End PageFacts.

Lemma attachment_in_sync_run
    (dispatch : FormValues -> Settlement) (tr : list Event) :
  attachment_in_sync (run dispatch tr init).
Proof.
  apply run_preserves; [apply attachment_in_sync_step|].
  exists (mkFileInput []). repeat split.
Qed.

(** X2. Along every sequence of events the attachment is held
    consistently: the file input is mounted, the form's [artifactFile] is
    the first file of the input, or [null] when the input is empty and
    never [undefined], and the shown name is that file's name. Selecting,
    submitting, failing and the reset after a success all keep the three
    in step. *)
Theorem attachment_holders_agree
    (dispatch : FormValues -> Settlement) (tr : list Event) :
  exists w,
    fileInputRef (run dispatch tr init) = Some w
    /\ artifactFile (form (run dispatch tr init))
       = match files w with [] => Null | f :: _ => Present f end
    /\ selectedFileName (run dispatch tr init)
       = match files w with [] => None | f :: _ => Some (File.name f) end
    /\ artifactFile (form (run dispatch tr init)) <> Undefined.
Proof.
  destruct (attachment_in_sync_run dispatch tr) as (w & Hw & Hf & Hs).
  exists w.
  split; [exact Hw|]. split; [exact Hf|]. split; [exact Hs|].
  rewrite Hf. destruct (files w); discriminate.
Qed.

(** X3. The upload button always names the attached file: along every
    sequence of events its label is the name of the form's file when
    there is one with a non-empty name, and "Choose File" otherwise; a
    file whose name is the empty string is attached but shown as
    "Choose File". *)
Theorem upload_label_follows_attachment
    (dispatch : FormValues -> Settlement) (tr : list Event) :
  upload_button_label (run dispatch tr init)
  = match artifactFile (form (run dispatch tr init)) with
    | Present f =>
        if truthy (File.name f) then File.name f else lit "Choose File"
    | Undefined | Null => lit "Choose File"
    end.
Proof.
  destruct (attachment_in_sync_run dispatch tr) as (w & _ & Hf & Hs).
  unfold upload_button_label. rewrite Hs, Hf.
  destruct (files w); reflexivity.
Qed.

(** ** What reaches the service *)

Lemma validated_only_run
    (dispatch : FormValues -> Settlement) (tr : list Event) :
  validated_only (run dispatch tr init).
Proof.
  apply run_preserves; [apply validated_only_step|].
  split; [constructor | exact I].
Qed.

(** X4. Validation gates everything downstream: along every sequence of
    events, each suspended submission carries values that meet both
    length conditions, and any summary stored was built from such
    values. *)
Theorem only_validated_values_dispatched
    (dispatch : FormValues -> Settlement) (tr : list Event) :
  Forall (fun k => 2 <= List.length (artifactName (values k))
                   /\ 20 <= List.length (contributionText (values k)))
         (inflight (run dispatch tr init))
  /\ match summary (run dispatch tr init) with
     | None => True
     | Some s =>
         exists v,
           2 <= List.length (artifactName v)
           /\ 20 <= List.length (contributionText v)
           /\ s = summary_text (mkContinuation v (fileInfo_of v))
     end.
Proof.
  destruct (validated_only_run dispatch tr) as [Hi Hs]. split.
  - eapply Forall_impl; [|exact Hi]. intros k [Hk _]. exact Hk.
  - destruct (summary (run dispatch tr init)) as [s|]; [|exact I].
    destruct Hs as (v & [Hn Ht] & ->).
    exists v. repeat split; assumption.
Qed.

Lemma toFieldErrors_nonempty (issues : list Zod.Issue)
    (acc : list FieldError) :
  acc <> [] -> toFieldErrors acc issues <> [].
Proof.
  revert acc. induction issues as [|i rest IH]; intros acc Ha; simpl.
  - exact Ha.
  - destruct (has_field (Zod.path i) acc); apply IH; [exact Ha|].
    destruct acc; discriminate.
Qed.

Lemma validate_err_nonempty (v : FormValues) (es : list FieldError) :
  validate v = Err es -> es <> [].
Proof.
  unfold validate. destruct (formSchema v) as [|i rest]; [discriminate|].
  intros E. injection E as <-. simpl.
  apply toFieldErrors_nonempty. discriminate.
Qed.

(** X5. A submit whose values fail validation is surfaced and nothing
    else: the field errors are stored, while the form values, the
    attachment, the stored summary, the toasts, the pending flag and the
    suspended submissions all stay as they were. In particular a summary
    already shown stays shown. *)
Theorem invalid_submit_only_sets_errors
    (dispatch : FormValues -> Settlement) (st : State)
    (es : list FieldError) :
  isPending st = false ->
  validate (form st) = Err es ->
  step dispatch Submit st = set_errors es st
  /\ es <> []
  /\ inflight (step dispatch Submit st) = inflight st
  /\ toasts (step dispatch Submit st) = toasts st
  /\ summary (step dispatch Submit st) = summary st
  /\ render (step dispatch Submit st) = render st
  /\ form (step dispatch Submit st) = form st.
Proof.
  intros Hp Hv.
  assert (E : step dispatch Submit st = set_errors es st).
  { simpl. unfold submit_disabled. rewrite Hp. unfold handleSubmit.
    rewrite Hv. reflexivity. }
  rewrite E. split; [reflexivity|]. split.
  - exact (validate_err_nonempty _ _ Hv).
  - destruct st. repeat split.
Qed.

Lemma invalid_submit_only_sets_errors_witness :
  let tr := [ChangeName phurba_dagger; ChangeText dagger_description;
             Submit; Settle] in
  step simulated Submit (run simulated tr init)
  = set_errors [error_artifactName; error_contributionText]
               (run simulated tr init)
  /\ render (step simulated Submit (run simulated tr init))
     = render (run simulated tr init).
Proof.
  cbv zeta.
  pose proof (invalid_submit_only_sets_errors simulated
    (run simulated [ChangeName phurba_dagger; ChangeText dagger_description;
                    Submit; Settle] init)
    [error_artifactName; error_contributionText] eq_refl eq_refl)
    as (H1 & _ & _ & _ & _ & H6 & _).
  split; [exact H1 | exact H6].
Defined.

(** ** A submission from start to end *)

(** X6. The summary speaks about what was submitted, not about what is in
    the form when the answer arrives. After an accepted submit, whatever
    the user types, selects or tries to submit while the submission is
    pending, a fulfilment stores the summary of the values captured at
    the submit, and the reset then discards those later edits together
    with the rest of the form. *)
Theorem summary_uses_captured_values
    (dispatch : FormValues -> Settlement) (st : State)
    (mid : list Event) :
  isPending st = false ->
  inflight st = [] ->
  validate (form st) = Ok (form st) ->
  dispatch (form st) = Fulfilled ->
  forallb (fun e => negb (is_settle e)) mid = true ->
  let st' := run dispatch (Submit :: mid ++ [Settle]) st in
  summary st'
  = Some (summary_text (mkContinuation (form st) (fileInfo_of (form st))))
  /\ form st' = defaultValues
  /\ selectedFileName st' = None
  /\ isPending st' = false.
Proof.
  intros Hp Hi Hv Hd Hm. cbv zeta.
  change (run dispatch (Submit :: mid ++ [Settle]) st)
    with (run dispatch (mid ++ [Settle]) (step dispatch Submit st)).
  rewrite (submit_accepted dispatch st (form st) Hp Hv), run_app.
  destruct (onSubmit_fields (form st) st) as (_ & _ & _ & _ & _ & Hk).
  rewrite Hi, app_nil_l in Hk.
  assert (Hp1 : isPending (onSubmit (form st) (set_errors [] st)) = true)
    by (destruct st; reflexivity).
  set (st1 := onSubmit (form st) (set_errors [] st)) in *.
  destruct (suspended_kept_run dispatch mid st1 Hm Hp1) as [_ Hi2].
  rewrite Hk in Hi2.
  change (run dispatch [Settle] (run dispatch mid st1))
    with (step dispatch Settle (run dispatch mid st1)).
  destruct (settle_fulfilled dispatch _ _ _ Hi2 Hd)
    as (Hf & _ & Hs & _ & Hsum & _ & _ & _ & Hp').
  repeat split; assumption.
Qed.

Lemma summary_uses_captured_values_witness :
  let st := run simulated [ChangeName phurba_dagger;
                           ChangeText dagger_description] init in
  let mid := [ChangeName (lit "Something else");
              ChooseFiles [dagger_jpg 1024 (lit "image/jpeg")]; Submit] in
  let st' := run simulated (Submit :: mid ++ [Settle]) st in
  summary st'
  = Some (summary_text
            (mkContinuation
               (mkFormValues phurba_dagger Null dagger_description) []))
  /\ form st' = defaultValues.
Proof.
  cbv zeta.
  pose proof (summary_uses_captured_values simulated
    (run simulated [ChangeName phurba_dagger;
                    ChangeText dagger_description] init)
    [ChangeName (lit "Something else");
     ChooseFiles [dagger_jpg 1024 (lit "image/jpeg")]; Submit]
    eq_refl eq_refl eq_refl eq_refl eq_refl) as (H1 & H2 & _).
  split; [exact H1 | exact H2].
Defined.

Lemma summary_text_truthy (k : Continuation) :
  truthy (summary_text k) = true.
Proof. reflexivity. Qed.

(** X7. Every fulfilment ends in the result view: along every sequence
    of events, when the suspended submission fulfils, the transition is
    over and the panel shows the summary of that submission; the summary
    text is never the empty string, so it is never mistaken for no
    summary. *)
Theorem fulfilled_shows_result
    (dispatch : FormValues -> Settlement) (tr : list Event)
    (k : Continuation) (rest : list Continuation) :
  inflight (run dispatch tr init) = k :: rest ->
  dispatch (values k) = Fulfilled ->
  render (step dispatch Settle (run dispatch tr init))
  = ResultView (summary_text k)
  /\ truthy (summary_text k) = true
  /\ fileInfo k = fileInfo_of (values k).
Proof.
  intros Hk Hd.
  pose proof (consistent_run dispatch tr) as Hc. unfold consistent in Hc.
  rewrite Hk in Hc. destruct rest as [|k' rest]; [|contradiction].
  destruct Hc as (_ & _ & Hfi).
  destruct (settle_fulfilled dispatch _ _ _ Hk Hd)
    as (_ & _ & _ & _ & Hsum & _ & _ & _ & Hp').
  unfold render. rewrite Hp', Hsum, summary_text_truthy.
  repeat split. exact Hfi.
Qed.

Lemma fulfilled_shows_result_witness :
  let tr := [ChangeName phurba_dagger; ChangeText dagger_description;
             Submit] in
  let k := mkContinuation
             (mkFormValues phurba_dagger Null dagger_description) [] in
  render (step simulated Settle (run simulated tr init))
  = ResultView (summary_text k).
Proof.
  cbv zeta.
  pose proof (fulfilled_shows_result simulated
    [ChangeName phurba_dagger; ChangeText dagger_description; Submit]
    (mkContinuation (mkFormValues phurba_dagger Null dagger_description) [])
    [] eq_refl eq_refl) as (H & _).
  exact H.
Defined.

(** X8. A success cannot be sent twice by submitting again: right after
    a fulfilment the form holds the defaults, which fail both length
    checks, so the next submit suspends nothing, emits no toast, stores
    the two field errors and leaves the summary on display. *)
Theorem resubmit_after_success_is_rejected
    (dispatch : FormValues -> Settlement) (tr : list Event)
    (k : Continuation) (rest : list Continuation) :
  inflight (run dispatch tr init) = k :: rest ->
  dispatch (values k) = Fulfilled ->
  let st1 := step dispatch Settle (run dispatch tr init) in
  let st2 := step dispatch Submit st1 in
  validate (form st1) = Err [error_artifactName; error_contributionText]
  /\ st2 = set_errors [error_artifactName; error_contributionText] st1
  /\ inflight st2 = []
  /\ isPending st2 = false
  /\ render st2 = ResultView (summary_text k).
Proof.
  intros Hk Hd. cbv zeta.
  pose proof (consistent_run dispatch tr) as Hc. unfold consistent in Hc.
  rewrite Hk in Hc. destruct rest as [|k' rest]; [|contradiction].
  destruct (settle_fulfilled dispatch _ _ _ Hk Hd)
    as (Hf & _ & _ & _ & Hsum & _ & _ & Hi & Hp').
  set (st1 := step dispatch Settle (run dispatch tr init)) in *.
  assert (Hv : validate (form st1)
               = Err [error_artifactName; error_contributionText])
    by (rewrite Hf; reflexivity).
  assert (E : step dispatch Submit st1
              = set_errors [error_artifactName; error_contributionText] st1).
  { simpl. unfold submit_disabled. rewrite Hp'. unfold handleSubmit.
    rewrite Hv. reflexivity. }
  rewrite E. split; [exact Hv|]. split; [reflexivity|].
  assert (R : render (set_errors [error_artifactName; error_contributionText]
                                 st1) = render st1)
    by (destruct st1; reflexivity).
  rewrite R. unfold render. rewrite Hp', Hsum, summary_text_truthy.
  destruct st1; simpl in *. repeat split; assumption.
Qed.

Lemma resubmit_after_success_is_rejected_witness :
  let tr := [ChangeName phurba_dagger; ChangeText dagger_description;
             Submit] in
  let st1 := step simulated Settle (run simulated tr init) in
  inflight (step simulated Submit st1) = []
  /\ isPending (step simulated Submit st1) = false.
Proof.
  cbv zeta.
  pose proof (resubmit_after_success_is_rejected simulated
    [ChangeName phurba_dagger; ChangeText dagger_description; Submit]
    (mkContinuation (mkFormValues phurba_dagger Null dagger_description) [])
    [] eq_refl eq_refl) as (_ & _ & H3 & H4 & _).
  split; [exact H3 | exact H4].
Defined.

(** X9. Settling always hands the page back: along every sequence of
    events, after the awaited promise settles, in either way, no
    submission is suspended, the transition is over and the submit button
    is enabled again; a settling with a submission pending emits exactly
    one toast, and one with nothing pending changes nothing. *)
Theorem settle_returns_to_idle
    (dispatch : FormValues -> Settlement) (tr : list Event) :
  isPending (step dispatch Settle (run dispatch tr init)) = false
  /\ inflight (step dispatch Settle (run dispatch tr init)) = []
  /\ submit_disabled (step dispatch Settle (run dispatch tr init)) = false
  /\ (if isPending (run dispatch tr init)
      then List.length (toasts (step dispatch Settle (run dispatch tr init)))
           = S (List.length (toasts (run dispatch tr init)))
      else step dispatch Settle (run dispatch tr init)
           = run dispatch tr init).
Proof.
  pose proof (consistent_run dispatch tr) as Hc. unfold consistent in Hc.
  unfold submit_disabled.
  destruct (inflight (run dispatch tr init)) as [|k [|k' rest]] eqn:Hi;
    [| |contradiction].
  - assert (E : step dispatch Settle (run dispatch tr init)
                = run dispatch tr init)
      by (simpl; unfold settle; rewrite Hi; reflexivity).
    rewrite E, Hc, Hi. repeat split.
  - destruct Hc as (Hp & _ & _). rewrite Hp.
    destruct (dispatch (values k)) as [|r] eqn:Hd.
    + destruct (settle_fulfilled dispatch _ _ _ Hi Hd)
        as (_ & _ & _ & _ & _ & Ht & _ & Hi' & Hp').
      rewrite Hp', Hi', Ht, length_app. simpl. repeat split. lia.
    + destruct (settle_rejected dispatch _ _ _ _ Hi Hd)
        as (_ & _ & _ & _ & _ & Ht & Hi' & Hp').
      rewrite Hp', Hi', Ht, length_app. simpl. repeat split. lia.
Qed.

Lemma failures_logged_run
    (dispatch : FormValues -> Settlement) (tr : list Event) :
  failures_logged (run dispatch tr init).
Proof.
  apply run_preserves; [apply failures_logged_step|].
  split; [reflexivity | constructor].
Qed.

(** X10. Failures are reported once each, in both places: along every
    sequence of events and whatever the awaited promise does, the number
    of lines written with [console.error] equals the number of
    destructive toasts, and every toast emitted is either the
    contribution-received toast or the error toast. *)
Theorem failures_logged_and_toasted
    (dispatch : FormValues -> Settlement) (tr : list Event) :
  List.length (console (run dispatch tr init))
  = List.length (filter is_destructive (toasts (run dispatch tr init)))
  /\ Forall (fun t => t = toast_received \/ t = toast_error)
            (toasts (run dispatch tr init)).
Proof. exact (failures_logged_run dispatch tr). Qed.

(** ** The words of the summary *)

(** A separator that does not occur in [sub] splits the search. *)
Lemma includes_across (a b sub : jsstring) (q : code_unit) :
  ~ In q sub -> sub <> [] ->
  includes (a ++ q :: b) sub = includes a sub || includes b sub.
Proof.
  intros Hq Hne. apply eq_true_iff_eq.
  rewrite orb_true_iff, !includes_spec. split.
  - intros (pre & post & E).
    apply app_eq_app in E. destruct E as (l & [[Ha Hs] | [Hp Hb]]).
    + left. apply app_eq_app in Hs.
      destruct Hs as (l2 & [[Hs2 Hb2] | [Hl Hp2]]).
      * destruct l2 as [|c l2].
        -- exists pre, []. rewrite Ha, Hs2, !app_nil_r. reflexivity.
        -- exfalso. apply Hq. simpl in Hb2. injection Hb2 as <- _.
           rewrite Hs2. apply in_or_app. right. left. reflexivity.
      * exists pre, l2. rewrite Ha, Hl. reflexivity.
    + destruct l as [|c l].
      * exfalso. simpl in Hb. destruct sub as [|c sub]; [congruence|].
        apply Hq. simpl in Hb. injection Hb as <- _. left. reflexivity.
      * right. simpl in Hb. injection Hb as _ Hb. exists l, post. exact Hb.
  - intros [(pre & post & ->) | (pre & post & ->)].
    + exists pre, (post ++ q :: b). rewrite <- !app_assoc. reflexivity.
    + exists (a ++ q :: pre), post. rewrite <- app_assoc. reflexivity.
Qed.

Lemma summary_without_file (name text : jsstring) (file : FileField)
    (sub : jsstring) :
  file = Null \/ file = Undefined ->
  ~ In dquote sub -> sub <> [] ->
  let v := mkFormValues name file text in
  includes (summary_text (mkContinuation v (fileInfo_of v))) sub
  = includes (lit "Thank you for your submission about ") sub
    || (includes name sub
        || includes (lit ". The data has been received and will be authenticated and added to the archive.") sub).
Proof.
  intros Hf Hq Hne. cbv zeta.
  assert (E : fileInfo_of (mkFormValues name file text) = [])
    by (destruct Hf as [-> | ->]; reflexivity).
  unfold summary_text. cbn [values fileInfo artifactName]. rewrite E.
  change ([dquote] ++ name ++ [dquote] ++ [] ++ ?s)
    with (dquote :: (name ++ dquote :: s)).
  rewrite (includes_across _ _ sub dquote Hq Hne).
  rewrite (includes_across _ _ sub dquote Hq Hne).
  reflexivity.
Qed.

(** X11. The words "with file" announce an attachment and nothing else:
    the summary of a submission with a file always contains them, and the
    summary of a submission without one contains them only when the
    artifact name itself does. *)
Theorem with_file_means_attachment (name text : jsstring) :
  (let v := mkFormValues name Null text in
   includes (summary_text (mkContinuation v (fileInfo_of v)))
            (lit "with file")
   = includes name (lit "with file"))
  /\ (let v := mkFormValues name Undefined text in
      includes (summary_text (mkContinuation v (fileInfo_of v)))
               (lit "with file")
      = includes name (lit "with file"))
  /\ (forall f,
        let v := mkFormValues name (Present f) text in
        includes (summary_text (mkContinuation v (fileInfo_of v)))
                 (lit "with file") = true).
Proof.
  assert (Hq : ~ In dquote (lit "with file"))
    by (vm_compute; intuition discriminate).
  assert (Hne : lit "with file" <> []) by discriminate.
  assert (H1 : includes (lit "Thank you for your submission about ")
                        (lit "with file") = false) by (vm_compute; reflexivity).
  assert (H2 : includes (lit ". The data has been received and will be authenticated and added to the archive.")
                        (lit "with file") = false) by (vm_compute; reflexivity).
  split; [|split].
  - cbv zeta.
    rewrite (summary_without_file name text Null _ (or_introl eq_refl) Hq Hne).
    rewrite H1, H2, orb_false_r. reflexivity.
  - cbv zeta.
    rewrite (summary_without_file name text Undefined _
               (or_intror eq_refl) Hq Hne).
    rewrite H1, H2, orb_false_r. reflexivity.
  - intros f. cbv zeta. apply includes_spec.
    unfold summary_text, fileInfo_of. cbn [values fileInfo artifactName artifactFile].
    exists (lit "Thank you for your submission about " ++ [dquote] ++ name
            ++ [dquote] ++ lit " (").
    exists (lit ": " ++ File.name f ++ lit ")"
            ++ lit ". The data has been received and will be authenticated and added to the archive.").
    change (lit " (with file: ")
      with (lit " (" ++ lit "with file" ++ lit ": ").
    rewrite <- !app_assoc. reflexivity.
Qed.
